(** * Startup orchestration of the Prometheus custom-metrics adapter

    A shallow embedding of [cmd/adapter/app/start.go]:
    [makeHTTPClient], [RunCustomMetricsAdapterServer] and the [RunE] handler
    installed by [NewCommandStartPrometheusAdapterServer].

    The Go code is a straight line of calls into collaborators (client-go,
    net/url, the custom-metrics API server library, the adapter's own client
    and provider packages) with an early return after each failing call.  The
    collaborators are not part of the file; they are the fields of a [World],
    and every call is recorded, with its arguments and its answer, in a trace
    of [Event]s.  A collaborator that touches the file system, the process
    environment or the network receives the history of the calls made so far,
    so that the same call may be answered differently at different times. *)

From Stdlib Require Import String Ascii List Bool ZArith Lia Sorted.
Import ListNotations.
Open Scope string_scope.
Open Scope list_scope.

(** ** Data *)

(** [time.Duration] is an [int64] count of nanoseconds. *)
Definition Duration := Z.
Definition Nanosecond : Duration := 1%Z.
Definition Microsecond : Duration := (1000 * Nanosecond)%Z.
Definition Millisecond : Duration := (1000 * Microsecond)%Z.
Definition Second : Duration := (1000 * Millisecond)%Z.
Definition Minute : Duration := (60 * Second)%Z.

(** [url.URL], the fields a parsed URL is made of. *)
Record URL := mkURL {
  Scheme : string;
  Opaque : string;
  Host : string;
  Path : string;
  RawQuery : string;
  Fragment : string
}.

(** Go's [error] values.  [ExtError] is an error handed back by a
    collaborator, known by its message; [Errorf] is [fmt.Errorf] with its
    format string and its operands, kept unrendered. *)
Inductive error : Type :=
| ExtError (msg : string)
| Errorf (format : string) (args : list FmtArg)
with FmtArg : Type :=
| ArgString (s : string)
| ArgURL (u : option URL)
| ArgErr (e : error).

(** The [(T, error)] answer of a collaborator. *)
Inductive result (T : Type) : Type :=
| Err (e : error)
| Ok (v : T).
Arguments Err {T} e.
Arguments Ok {T} v.

(** Values owned by the collaborators are handles. *)
Inductive BaseOptions := baseOptions (id : nat).
Inductive RestConfig := restConfig (id : nat).
Inductive Transport := transport (id : nat).
Inductive DiscoveryClient := discoveryClient (id : nat).
Inductive RESTMapper := restMapper (id : nat).
Inductive Server := apiServer (id : nat).
Inductive StopCh := stopChan (id : nat).

(** [server.Config]; the code writes [GenericConfig.EnableMetrics]. *)
Record ServerConfig := mkServerConfig {
  configId : nat;
  EnableMetrics : bool
}.

Definition set_EnableMetrics (c : ServerConfig) (b : bool) : ServerConfig :=
  {| configId := configId c; EnableMetrics := b |}.

(** [*http.Client]: the package's [http.DefaultClient], or a client allocated
    with a transport of its own. *)
Inductive HTTPClient :=
| DefaultClient
| Client (tr : Transport).

(** Constructors that cannot fail are kept as the record of their arguments. *)
Record ClientPool := NewClientPool {
  poolConfig : RestConfig;
  poolMapper : RESTMapper
}.

Record GenericAPIClient := NewGenericAPIClient {
  apiHTTPClient : option HTTPClient;
  apiBaseURL : URL
}.

Record InstrumentedClient := InstrumentGenericAPIClient {
  instrumentedInner : GenericAPIClient;
  serverName : string
}.

Record PromClient := NewClientForAPI {
  promAPI : InstrumentedClient
}.

Record Provider := NewPrometheusProvider {
  provMapper : RESTMapper;
  provPool : ClientPool;
  provClient : PromClient;
  provLabelPrefix : string;
  provRelistInterval : Duration;
  provRateInterval : Duration;
  provStopCh : StopCh
}.

Record CompletedConfig := Complete {
  completed : ServerConfig
}.

Record PrometheusAdapterServerOptions := mkOptions {
  CustomMetricsAdapterServerOptions : BaseOptions;
  RemoteKubeConfigFile : string;
  MetricsRelistInterval : Duration;
  RateInterval : Duration;
  DiscoveryInterval : Duration;
  PrometheusURL : string;
  PrometheusAuthInCluster : bool;
  PrometheusAuthConf : string;
  LabelPrefix : string
}.

(** ** Calls into the collaborators *)

(** The two places that load a kubeconfig: the lister (cluster) configuration
    in the server runner, and the Prometheus credentials in
    [makeHTTPClient]. *)
Inductive Site := Lister | PromAuth.

Inductive Event :=
| EvOptsComplete (b : BaseOptions) (r : option error)
| EvOptsValidate (b : BaseOptions) (args : list string) (r : option error)
| EvConfig (b : BaseOptions) (r : result ServerConfig)
| EvClientConfig (site : Site) (path : string) (r : result RestConfig)
| EvInClusterConfig (site : Site) (r : result RestConfig)
| EvTransportFor (c : RestConfig) (r : result Transport)
| EvNewDiscoveryClient (c : RestConfig) (r : result DiscoveryClient)
| EvNewRESTMapper (dc : DiscoveryClient) (interval : Duration)
                  (r : result RESTMapper)
| EvNewClientPool (p : ClientPool)
| EvURLParse (raw : string) (r : result URL)
| EvNewGenericAPIClient (c : GenericAPIClient)
| EvInstrument (c : InstrumentedClient)
| EvNewClientForAPI (c : PromClient)
| EvNewPrometheusProvider (p : Provider)
| EvServerNew (cc : CompletedConfig) (name : string) (p : Provider)
              (r : result Server)
| EvRun (s : Server) (stop : StopCh) (r : option error).

Record World := mkWorld {
  (* promoted from the embedded *server.CustomMetricsAdapterServerOptions *)
  opts_Complete : list Event -> BaseOptions -> option error;
  opts_Validate : list Event -> BaseOptions -> list string -> option error;
  opts_Config : list Event -> BaseOptions -> result ServerConfig;
  (* clientcmd: the deferred loader with ExplicitPath, then ClientConfig() *)
  clientcmd_ClientConfig : list Event -> string -> result RestConfig;
  rest_InClusterConfig : list Event -> result RestConfig;
  rest_TransportFor : list Event -> RestConfig -> result Transport;
  discovery_NewDiscoveryClientForConfig :
    list Event -> RestConfig -> result DiscoveryClient;
  dynamicmapper_NewRESTMapper :
    list Event -> DiscoveryClient -> Duration -> result RESTMapper;
  (* net/url and strconv are pure *)
  url_Parse : string -> result URL;
  URL_String : URL -> string;
  strconv_Quote : string -> string;
  (* config.Complete().New(name, provider) and PrepareRun().Run(stopCh) *)
  server_New :
    list Event -> CompletedConfig -> string -> Provider -> result Server;
  server_Run : list Event -> Server -> StopCh -> option error
}.

(** ** The trace monad *)

(** A computation reads the history of the calls made before it and returns
    its value with the calls it made itself, oldest first. *)
Definition IO (A : Type) : Type := list Event -> A * list Event.

Definition ret {A} (a : A) : IO A := fun _ => (a, []).

Definition bind {A B} (m : IO A) (k : A -> IO B) : IO B :=
  fun h =>
    let (a, t1) := m h in
    let (b, t2) := k a (h ++ t1) in
    (b, t1 ++ t2).

Declare Scope io_scope.
Delimit Scope io_scope with io.
Notation "x <- m ;; k" := (bind m (fun x => k))
  (at level 61, m at next level, right associativity) : io_scope.
Notation "' p <- m ;; k" := (bind m (fun x => match x with p => k end))
  (at level 61, p pattern, m at next level, right associativity) : io_scope.

(** The [(T, error)] answers of the collaborators are a [result]: an error
    with no value or a value with no error, as each of them documents (in
    particular [url.Parse] returns a nil URL with its error).

    Go's [v, err := f(); if err != nil { return fail(err) }; rest]. *)
Definition bindOrReturn {A R} (m : IO (result A)) (fail : error -> R)
    (k : A -> IO R) : IO R :=
  bind m (fun r => match r with
                   | Err err => ret (fail err)
                   | Ok v => k v
                   end).

Notation "x <- m 'orReturn' f ;; k" := (bindOrReturn m f (fun x => k))
  (at level 61, m at next level, f at next level, right associativity)
  : io_scope.

Section Program.

Variable w : World.

Definition call_Complete (b : BaseOptions) : IO (option error) :=
  fun h => let r := opts_Complete w h b in (r, [EvOptsComplete b r]).

Definition call_Validate (b : BaseOptions) (args : list string)
    : IO (option error) :=
  fun h => let r := opts_Validate w h b args in (r, [EvOptsValidate b args r]).

Definition call_Config (b : BaseOptions) : IO (result ServerConfig) :=
  fun h => let r := opts_Config w h b in (r, [EvConfig b r]).

Definition call_ClientConfig (site : Site) (path : string)
    : IO (result RestConfig) :=
  fun h => let r := clientcmd_ClientConfig w h path in
           (r, [EvClientConfig site path r]).

Definition call_InClusterConfig (site : Site) : IO (result RestConfig) :=
  fun h => let r := rest_InClusterConfig w h in (r, [EvInClusterConfig site r]).

Definition call_TransportFor (c : RestConfig) : IO (result Transport) :=
  fun h => let r := rest_TransportFor w h c in (r, [EvTransportFor c r]).

Definition call_NewDiscoveryClientForConfig (c : RestConfig)
    : IO (result DiscoveryClient) :=
  fun h => let r := discovery_NewDiscoveryClientForConfig w h c in
           (r, [EvNewDiscoveryClient c r]).

Definition call_NewRESTMapper (dc : DiscoveryClient) (interval : Duration)
    : IO (result RESTMapper) :=
  fun h => let r := dynamicmapper_NewRESTMapper w h dc interval in
           (r, [EvNewRESTMapper dc interval r]).

Definition call_NewClientPool (c : RestConfig) (m : RESTMapper)
    : IO ClientPool :=
  fun _ => let p := NewClientPool c m in (p, [EvNewClientPool p]).

Definition call_Parse (raw : string) : IO (result URL) :=
  fun _ => let r := url_Parse w raw in (r, [EvURLParse raw r]).

Definition call_NewGenericAPIClient (c : option HTTPClient) (u : URL)
    : IO GenericAPIClient :=
  fun _ => let g := NewGenericAPIClient c u in (g, [EvNewGenericAPIClient g]).

Definition call_InstrumentGenericAPIClient (g : GenericAPIClient)
    (name : string) : IO InstrumentedClient :=
  fun _ => let i := InstrumentGenericAPIClient g name in (i, [EvInstrument i]).

Definition call_NewClientForAPI (i : InstrumentedClient) : IO PromClient :=
  fun _ => let c := NewClientForAPI i in (c, [EvNewClientForAPI c]).

Definition call_NewPrometheusProvider (m : RESTMapper) (pool : ClientPool)
    (c : PromClient) (labelPrefix : string) (relist rate : Duration)
    (stopCh : StopCh) : IO Provider :=
  fun _ => let p := NewPrometheusProvider m pool c labelPrefix relist rate
                      stopCh in
           (p, [EvNewPrometheusProvider p]).

Definition call_New (cc : CompletedConfig) (name : string) (p : Provider)
    : IO (result Server) :=
  fun h => let r := server_New w h cc name p in (r, [EvServerNew cc name p r]).

Definition call_Run (s : Server) (stopCh : StopCh) : IO (option error) :=
  fun h => let r := server_Run w h s stopCh in (r, [EvRun s stopCh r]).

(** ** start.go *)

Open Scope io_scope.

(** [makeHTTPClient] (start.go:96-128).  The result is Go's pair of a
    [*http.Client] and an [error], each of which may be nil ([None]). *)
Definition makeHTTPClient (inClusterAuth : bool) (kubeConfigPath : string)
    : IO (option HTTPClient * option error) :=
  (* make sure we're not trying to use two different sources of auth *)
  if inClusterAuth && negb (kubeConfigPath =? "") then
    ret (None, Some (Errorf
      "may not use both in-cluster auth and an explicit kubeconfig at the same time"
      []))
  (* return the default client if we're using no auth *)
  else if negb inClusterAuth && (kubeConfigPath =? "") then
    ret (Some DefaultClient, None)
  else
    let withAuthConf (authConf : RestConfig) :=
      tr <- call_TransportFor authConf
        orReturn (fun err => (None, Some (Errorf
          "unable to construct client transport for connecting to Prometheus: %v"
          [ArgErr err]))) ;;
      ret (Some (Client tr), None) in
    if negb (kubeConfigPath =? "") then
      authConf <- call_ClientConfig PromAuth kubeConfigPath
        orReturn (fun err => (None, Some (Errorf
          "unable to construct  auth configuration from %q for connecting to Prometheus: %v"
          [ArgString kubeConfigPath; ArgErr err]))) ;;
      withAuthConf authConf
    else
      authConf <- call_InClusterConfig PromAuth
        orReturn (fun err => (None, Some (Errorf
          "unable to construct in-cluster auth configuration for connecting to Prometheus: %v"
          [ArgErr err]))) ;;
      withAuthConf authConf.

(** [RunCustomMetricsAdapterServer] (start.go:130-186); the result is the
    returned [error], [None] for nil. *)
Definition RunCustomMetricsAdapterServer (o : PrometheusAdapterServerOptions)
    (stopCh : StopCh) : IO (option error) :=
  config <- call_Config (CustomMetricsAdapterServerOptions o)
    orReturn (fun err => Some err) ;;
  let config := set_EnableMetrics config true in
  clientConfig <-
    (if (0 <? String.length (RemoteKubeConfigFile o))%nat
     then call_ClientConfig Lister (RemoteKubeConfigFile o)
     else call_InClusterConfig Lister)
    orReturn (fun err => Some (Errorf
      "unable to construct lister client config to initialize provider: %v"
      [ArgErr err])) ;;
  discoveryClient <- call_NewDiscoveryClientForConfig clientConfig
    orReturn (fun err => Some (Errorf
      "unable to construct discovery client for dynamic client: %v"
      [ArgErr err])) ;;
  dynamicMapper <- call_NewRESTMapper discoveryClient (DiscoveryInterval o)
    orReturn (fun err => Some (Errorf
      "unable to construct dynamic discovery mapper: %v" [ArgErr err])) ;;
  clientPool <- call_NewClientPool clientConfig dynamicMapper ;;
  (* NewClientPool returns no error: [err] is still the nil of the mapper's
     success when it is tested again *)
  match @None error with
  | Some err => ret (Some (Errorf
      "unable to construct lister client to initialize provider: %v"
      [ArgErr err]))
  | None =>
  (* TODO: actually configure this client (strip query vars, etc) *)
  baseURL <- call_Parse (PrometheusURL o)
    orReturn (fun err => Some (Errorf "invalid Prometheus URL %q: %v"
      [ArgURL None (* baseURL, nil beside the error *); ArgErr err])) ;;
  '(promHTTPClient, err) <-
    makeHTTPClient (PrometheusAuthInCluster o) (PrometheusAuthConf o) ;;
  match err with
  | Some err => ret (Some err)
  | None =>
  genericPromClient <- call_NewGenericAPIClient promHTTPClient baseURL ;;
  instrumentedGenericPromClient <-
    call_InstrumentGenericAPIClient genericPromClient (URL_String w baseURL) ;;
  promClient <- call_NewClientForAPI instrumentedGenericPromClient ;;
  cmProvider <- call_NewPrometheusProvider dynamicMapper clientPool promClient
    (LabelPrefix o) (MetricsRelistInterval o) (RateInterval o) stopCh ;;
  server <- call_New (Complete config) "prometheus-custom-metrics-adapter"
              cmProvider
    orReturn (fun err => Some err) ;;
  call_Run server stopCh
  end
  end.

(** The [RunE] handler of the command (start.go:54-65). *)
Definition RunE (o : PrometheusAdapterServerOptions) (args : list string)
    (stopCh : StopCh) : IO (option error) :=
  err <- call_Complete (CustomMetricsAdapterServerOptions o) ;;
  match err with
  | Some err => ret (Some err)
  | None =>
  err <- call_Validate (CustomMetricsAdapterServerOptions o) args ;;
  match err with
  | Some err => ret (Some err)
  | None =>
  err <- RunCustomMetricsAdapterServer o stopCh ;;
  match err with
  | Some err => ret (Some err)
  | None => ret None
  end
  end
  end.

Close Scope io_scope.

(** ** Rendering an error: [err.Error()]

    [fmt] for the two verbs of the file.  An operand is rendered under [%v]
    and under [%q]; a nil [*url.URL] prints as [<nil>] under both. *)
Fixpoint Sprintf (format : string) (operands : list (string * string))
    : string :=
  match format with
  | EmptyString => EmptyString
  | String "%"%char (String verb rest as tail) =>
      match operands with
      | (v, q) :: operands' =>
          if Ascii.eqb verb "v"%char then (v ++ Sprintf rest operands')%string
          else if Ascii.eqb verb "q"%char
               then (q ++ Sprintf rest operands')%string
               else String "%"%char (Sprintf tail operands)
      | [] => String "%"%char (Sprintf tail operands)
      end
  | String c rest => String c (Sprintf rest operands)
  end.

Fixpoint Error (e : error) : string :=
  match e with
  | ExtError msg => msg
  | Errorf format args =>
      Sprintf format
        ((fix operands (l : list FmtArg) : list (string * string) :=
            match l with
            | [] => []
            | a :: l' =>
                match a with
                | ArgString s => (s, strconv_Quote w s)
                | ArgURL None => ("<nil>", "<nil>")
                | ArgURL (Some u) =>
                    (URL_String w u, strconv_Quote w (URL_String w u))
                | ArgErr e' => (Error e', strconv_Quote w (Error e'))
                end :: operands l'
            end) args)
  end.

End Program.

(** The options as [NewCommandStartPrometheusAdapterServer] builds them before
    the flags are parsed (start.go:43-49). *)
Definition defaultOptions (baseOpts : BaseOptions)
    : PrometheusAdapterServerOptions :=
  {| CustomMetricsAdapterServerOptions := baseOpts;
     RemoteKubeConfigFile := "";
     MetricsRelistInterval := (10 * Minute)%Z;
     RateInterval := (5 * Minute)%Z;
     DiscoveryInterval := (10 * Minute)%Z;
     PrometheusURL := "https://localhost";
     PrometheusAuthInCluster := false;
     PrometheusAuthConf := "";
     LabelPrefix := "" |}.

(** [strings.Contains]. *)
Definition Contains (s substr : string) : bool :=
  match String.index 0 substr s with
  | Some _ => true
  | None => false
  end.

(** ** The error taxonomy of the specification

    The code has no error types; each kind of the specification is the
    [fmt.Errorf] of one return statement. *)
Definition ConfigConflict : error :=
  Errorf
    "may not use both in-cluster auth and an explicit kubeconfig at the same time"
    [].

Definition CredentialLoadError_path (path : string) (cause : error) : error :=
  Errorf
    "unable to construct  auth configuration from %q for connecting to Prometheus: %v"
    [ArgString path; ArgErr cause].

Definition CredentialLoadError_inCluster (cause : error) : error :=
  Errorf
    "unable to construct in-cluster auth configuration for connecting to Prometheus: %v"
    [ArgErr cause].

Definition TransportError (cause : error) : error :=
  Errorf
    "unable to construct client transport for connecting to Prometheus: %v"
    [ArgErr cause].

Definition CredentialLoadError_lister (cause : error) : error :=
  Errorf
    "unable to construct lister client config to initialize provider: %v"
    [ArgErr cause].

Definition DiscoveryClientError (cause : error) : error :=
  Errorf "unable to construct discovery client for dynamic client: %v"
    [ArgErr cause].

Definition MapperInitError (cause : error) : error :=
  Errorf "unable to construct dynamic discovery mapper: %v" [ArgErr cause].

Definition InvalidURL (cause : error) : error :=
  Errorf "invalid Prometheus URL %q: %v" [ArgURL None; ArgErr cause].

(** ** A concrete world

    [NetURL] follows net/url on the URLs the examples use: an optional scheme
    (put in lower case), then either an opaque part or [//host] and a path,
    then [?query] and [#fragment].  User information, escaping, host
    validation and a lone trailing [?] are left out. *)
Module NetURL.

(** [s] cut at the first [c]: the text before it and, when [c] occurs, the
    text after it. *)
Fixpoint cut (c : ascii) (s : string) : string * option string :=
  match s with
  | EmptyString => (EmptyString, None)
  | String a rest =>
      if Ascii.eqb a c then (EmptyString, Some rest)
      else let (before, after) := cut c rest in (String a before, after)
  end.

Definition isLetter (a : ascii) : bool :=
  let n := nat_of_ascii a in
  ((65 <=? n) && (n <=? 90) || (97 <=? n) && (n <=? 122))%nat.

Definition isDigitPlusMinusDot (a : ascii) : bool :=
  let n := nat_of_ascii a in
  ((48 <=? n)%nat && (n <=? 57)%nat
   || Ascii.eqb a "+" || Ascii.eqb a "-" || Ascii.eqb a ".").

Definition toLower (a : ascii) : ascii :=
  let n := nat_of_ascii a in
  if ((65 <=? n) && (n <=? 90))%nat then ascii_of_nat (n + 32) else a.

Fixpoint ToLower (s : string) : string :=
  match s with
  | EmptyString => EmptyString
  | String a rest => String (toLower a) (ToLower rest)
  end.

(** The loop of [getScheme], started at index [i = 0] with [first = true]. *)
Inductive SchemeScan :=
| MissingScheme          (* a colon at index 0: an error *)
| NoScheme               (* the whole text is the rest *)
| SchemeOfLength (n : nat).

Fixpoint scanScheme (first : bool) (s : string) : SchemeScan :=
  match s with
  | EmptyString => NoScheme
  | String c rest =>
      let continue :=
        match scanScheme false rest with
        | SchemeOfLength n => SchemeOfLength (S n)
        | _ => NoScheme
        end in
      if isLetter c then continue
      else if isDigitPlusMinusDot c then
        (if first then NoScheme else continue)
      else if Ascii.eqb c ":" then
        (if first then MissingScheme else SchemeOfLength 0)
      else NoScheme
  end.

Definition hasPrefix (s prefix : string) : bool := String.prefix prefix s.

(** [url.Parse]. *)
Definition Parse (rawurl : string) : result URL :=
  let (u, frag) := cut "#" rawurl in
  match scanScheme true u with
  | MissingScheme =>
      Err (ExtError ("parse " ++ rawurl ++ ": missing protocol scheme")%string)
  | scan =>
      let scheme :=
        match scan with
        | SchemeOfLength n => ToLower (String.substring 0 n u)
        | _ => EmptyString
        end in
      let rest :=
        match scan with
        | SchemeOfLength n =>
            String.substring (S n) (String.length u - S n) u
        | _ => u
        end in
      let (rest, query) := cut "?" rest in
      let query := match query with Some q => q | None => EmptyString end in
      let frag := match frag with Some f => f | None => EmptyString end in
      if negb (hasPrefix rest "/") && negb (String.eqb scheme "") then
        Ok (mkURL scheme rest "" "" query frag)
      else if hasPrefix rest "//" then
        let (host, path) :=
          cut "/" (String.substring 2 (String.length rest - 2) rest) in
        let path :=
          match path with
          | Some p => String "/" p
          | None => EmptyString
          end in
        Ok (mkURL scheme "" host path query frag)
      else Ok (mkURL scheme "" "" rest query frag)
  end.

(** The [String] method of a URL. *)
Definition String_ (u : URL) : string :=
  ((if String.eqb (Scheme u) "" then "" else Scheme u ++ ":")
   ++ (if negb (String.eqb (Opaque u) "") then Opaque u
       else (if negb (String.eqb (Scheme u) "")
                || negb (String.eqb (Host u) "")
             then (if negb (String.eqb (Host u) "")
                      || negb (String.eqb (Path u) "")
                   then "//" else "") ++ Host u
             else "")
            ++ (if negb (String.eqb (Path u) "")
                   && negb (hasPrefix (Path u) "/")
                   && negb (String.eqb (Host u) "")
                then "/" else "")
            ++ Path u)
   ++ (if String.eqb (RawQuery u) "" then "" else "?" ++ RawQuery u)
   ++ (if String.eqb (Fragment u) "" then "" else "#" ++ Fragment u))%string.

End NetURL.

(** [strconv.Quote] on text without quotes, backslashes or unprintable
    characters: the text between two double quotes. *)
Definition quoteMark : string := String (ascii_of_nat 34) EmptyString.
Definition Quote (s : string) : string := (quoteMark ++ s ++ quoteMark)%string.

(** A world where every collaborator succeeds except those named in
    [broken]. *)
Definition brokenIn (broken : list string) (name : string) : bool :=
  existsb (String.eqb name) broken.

Definition world (broken : list string) : World :=
  {| opts_Complete := fun _ _ =>
       if brokenIn broken "Complete"
       then Some (ExtError "cannot complete options") else None;
     opts_Validate := fun _ _ _ =>
       if brokenIn broken "Validate"
       then Some (ExtError "invalid options") else None;
     opts_Config := fun _ _ =>
       if brokenIn broken "Config"
       then Err (ExtError "error creating self-signed certificates")
       else Ok (mkServerConfig 1 false);
     clientcmd_ClientConfig := fun _ path =>
       if brokenIn broken "ClientConfig"
       then Err (ExtError ("stat " ++ path ++ ": no such file or directory")%string)
       else Ok (restConfig 2);
     rest_InClusterConfig := fun _ =>
       if brokenIn broken "InClusterConfig"
       then Err (ExtError
         "unable to load in-cluster configuration, KUBERNETES_SERVICE_HOST and KUBERNETES_SERVICE_PORT must be defined")
       else Ok (restConfig 3);
     rest_TransportFor := fun _ _ =>
       if brokenIn broken "TransportFor"
       then Err (ExtError "tls: failed to find any PEM data in certificate input")
       else Ok (transport 4);
     discovery_NewDiscoveryClientForConfig := fun _ _ =>
       if brokenIn broken "NewDiscoveryClientForConfig"
       then Err (ExtError "host must be a URL or a host:port pair")
       else Ok (discoveryClient 5);
     dynamicmapper_NewRESTMapper := fun _ _ _ =>
       if brokenIn broken "NewRESTMapper"
       then Err (ExtError "connection refused")
       else Ok (restMapper 6);
     url_Parse := NetURL.Parse;
     URL_String := NetURL.String_;
     strconv_Quote := Quote;
     server_New := fun _ _ _ _ =>
       if brokenIn broken "New"
       then Err (ExtError "cannot install API group")
       else Ok (apiServer 7);
     server_Run := fun _ _ _ =>
       if brokenIn broken "Run"
       then Some (ExtError "listen tcp :443: bind: permission denied")
       else None |}.

Definition stop0 : StopCh := stopChan 0.
Definition opts0 : PrometheusAdapterServerOptions :=
  defaultOptions (baseOptions 0).

Definition withPrometheusURL (u : string) (o : PrometheusAdapterServerOptions)
    : PrometheusAdapterServerOptions :=
  {| CustomMetricsAdapterServerOptions := CustomMetricsAdapterServerOptions o;
     RemoteKubeConfigFile := RemoteKubeConfigFile o;
     MetricsRelistInterval := MetricsRelistInterval o;
     RateInterval := RateInterval o;
     DiscoveryInterval := DiscoveryInterval o;
     PrometheusURL := u;
     PrometheusAuthInCluster := PrometheusAuthInCluster o;
     PrometheusAuthConf := PrometheusAuthConf o;
     LabelPrefix := LabelPrefix o |}.

Definition withPrometheusAuth (inCluster : bool) (conf : string)
    (o : PrometheusAdapterServerOptions) : PrometheusAdapterServerOptions :=
  {| CustomMetricsAdapterServerOptions := CustomMetricsAdapterServerOptions o;
     RemoteKubeConfigFile := RemoteKubeConfigFile o;
     MetricsRelistInterval := MetricsRelistInterval o;
     RateInterval := RateInterval o;
     DiscoveryInterval := DiscoveryInterval o;
     PrometheusURL := PrometheusURL o;
     PrometheusAuthInCluster := inCluster;
     PrometheusAuthConf := conf;
     LabelPrefix := LabelPrefix o |}.


(** ** Reasoning about computations *)

Ltac unfold_calls :=
  unfold bindOrReturn, bind, ret, call_Complete, call_Validate, call_Config,
    call_ClientConfig, call_InClusterConfig, call_TransportFor,
    call_NewDiscoveryClientForConfig, call_NewRESTMapper, call_NewClientPool,
    call_Parse, call_NewGenericAPIClient, call_InstrumentGenericAPIClient,
    call_NewClientForAPI, call_NewPrometheusProvider, call_New, call_Run in *.

(** Case analysis on the innermost scrutinee the goal is stuck on. *)
Ltac split_scrutinee :=
  match goal with
  | |- context [match ?x with _ => _ end] =>
      lazymatch x with
      | context [match _ with _ => _ end] => fail
      | _ => destruct x eqn:?
      end
  end.

Ltac split_all := repeat (split_scrutinee; cbn [fst snd app] in *).

Lemma eqb_empty_false (s : string) : s <> "" -> (s =? "")%string = false.
Proof. intro H. now apply String.eqb_neq. Qed.

Lemma length_pos_nonempty (s : string) :
  (0 <? String.length s)%nat = negb (s =? "")%string.
Proof. now destruct s. Qed.

(** ** The credential resolver, [makeHTTPClient] *)



(** C1.  With in-cluster auth on and a non-empty kubeconfig path,
    [makeHTTPClient] returns a nil client and the ConfigConflict error, and
    it has called no collaborator at all: no file, environment or network
    access precedes the failure, whatever the world and the history. *)
Theorem makeHTTPClient_conflict (w : World) (kubeConfigPath : string)
    (h : list Event) :
  kubeConfigPath <> "" ->
  makeHTTPClient w true kubeConfigPath h = ((None, Some ConfigConflict), []).
Proof.
  intro Hpath. unfold makeHTTPClient.
  rewrite (eqb_empty_false _ Hpath). reflexivity.
Qed.

Lemma makeHTTPClient_conflict_witness :
  "/etc/prom.kubeconfig" <> "" /\
  makeHTTPClient (world []) true "/etc/prom.kubeconfig" [] =
    ((None, Some ConfigConflict), []).
Proof.
  split; [discriminate | apply makeHTTPClient_conflict; discriminate].
Defined.



(** C9.  [makeHTTPClient] returns either a non-nil client with a nil error or
    a nil client with a non-nil error, on every input, in every world. *)
Theorem makeHTTPClient_client_xor_error (w : World) (inClusterAuth : bool)
    (kubeConfigPath : string) (h : list Event) :
  let '(client, err) := fst (makeHTTPClient w inClusterAuth kubeConfigPath h) in
  (client <> None /\ err = None) \/ (client = None /\ err <> None).
Proof.
  unfold makeHTTPClient. unfold_calls.
  destruct inClusterAuth, (kubeConfigPath =? "")%string; cbn;
    split_all; cbn; (left + right); split; congruence.
Qed.

(** ** The server runner, [RunCustomMetricsAdapterServer] *)

(** Every path through the runner, one goal per path. *)
Ltac run_paths :=
  unfold RunE, RunCustomMetricsAdapterServer, makeHTTPClient;
  rewrite ?length_pos_nonempty; unfold_calls;
  cbn; split_all; cbn in *;
  try match goal with H : false = true |- _ => discriminate H
                    | H : true = false |- _ => discriminate H end;
  try match goal with
      | |- context [server_Run ?w' ?h' ?s ?c] =>
          destruct (server_Run w' h' s c) eqn:?
      end.

Ltac in_cases H :=
  cbn in H;
  repeat match type of H with
         | _ \/ _ => destruct H as [H | H]
         | False => contradiction
         | ?a = ?b =>
             first [ discriminate H
                   | is_var b; subst b
                   | is_var a; subst a
                   | injection H as H; subst ]
         end.

(** Membership in the trace of a run that computes. *)
Ltac in_trace := vm_compute; repeat first [left; reflexivity | right].

Definition lastEvent (tr : list Event) : option Event :=
  List.last (map Some tr) None.

(** The call was answered with an error. *)
Definition isFailure (ev : Event) : bool :=
  match ev with
  | EvOptsComplete _ (Some _) | EvOptsValidate _ _ (Some _)
  | EvConfig _ (Err _) | EvClientConfig _ _ (Err _)
  | EvInClusterConfig _ (Err _) | EvTransportFor _ (Err _)
  | EvNewDiscoveryClient _ (Err _) | EvNewRESTMapper _ _ (Err _)
  | EvURLParse _ (Err _) | EvServerNew _ _ _ (Err _)
  | EvRun _ _ (Some _) => true
  | _ => false
  end.

(** Calls that build the object client pool, a Prometheus client or the
    provider. *)
Definition buildsPoolBackendOrProvider (ev : Event) : bool :=
  match ev with
  | EvNewClientPool _ | EvNewGenericAPIClient _ | EvInstrument _
  | EvNewClientForAPI _ | EvNewPrometheusProvider _ => true
  | _ => false
  end.

(** Calls of the backend side: resolving the Prometheus credentials and
    building the Prometheus clients. *)
Definition backendClientCall (ev : Event) : bool :=
  match ev with
  | EvClientConfig PromAuth _ _ | EvInClusterConfig PromAuth _
  | EvTransportFor _ _ | EvNewGenericAPIClient _ | EvInstrument _
  | EvNewClientForAPI _ => true
  | _ => false
  end.

(** Calls of the runtime startup work on the cluster side: credentials,
    discovery, mapper, pool. *)
Definition clusterStartupWork (ev : Event) : bool :=
  match ev with
  | EvClientConfig Lister _ _ | EvInClusterConfig Lister _
  | EvNewDiscoveryClient _ _ | EvNewRESTMapper _ _ _
  | EvNewClientPool _ => true
  | _ => false
  end.

(** Calls that come after the Prometheus credentials are resolved. *)
Definition afterBackendCredentials (ev : Event) : bool :=
  match ev with
  | EvNewGenericAPIClient _ | EvInstrument _ | EvNewClientForAPI _
  | EvNewPrometheusProvider _ | EvServerNew _ _ _ _ | EvRun _ _ _ => true
  | _ => false
  end.

(** The startup step a call belongs to. *)
Inductive Step :=
| OptionsHandling        (* Complete and Validate, in RunE *)
| GenericConfig          (* o.Config() *)
| ClusterClients         (* section 4.2 *)
| ParseURL               (* url.Parse of the Prometheus URL *)
| BackendCredentials     (* section 4.1, makeHTTPClient *)
| BackendClient          (* the three client constructors *)
| ComposeProvider        (* section 4.4 *)
| BuildServer            (* config.Complete().New *)
| Serve.                 (* PrepareRun().Run *)

Definition stepOf (ev : Event) : Step :=
  match ev with
  | EvOptsComplete _ _ | EvOptsValidate _ _ _ => OptionsHandling
  | EvConfig _ _ => GenericConfig
  | EvClientConfig Lister _ _ | EvInClusterConfig Lister _
  | EvNewDiscoveryClient _ _ | EvNewRESTMapper _ _ _
  | EvNewClientPool _ => ClusterClients
  | EvURLParse _ _ => ParseURL
  | EvClientConfig PromAuth _ _ | EvInClusterConfig PromAuth _
  | EvTransportFor _ _ => BackendCredentials
  | EvNewGenericAPIClient _ | EvInstrument _
  | EvNewClientForAPI _ => BackendClient
  | EvNewPrometheusProvider _ => ComposeProvider
  | EvServerNew _ _ _ _ => BuildServer
  | EvRun _ _ _ => Serve
  end.

(** The position of a step in the sequence of section 4.5, where parsing the
    base URL is the first thing the backend client factory (4.3) does. *)
Definition specOrder (s : Step) : nat :=
  match s with
  | OptionsHandling => 0
  | GenericConfig => 1
  | ClusterClients => 2
  | BackendCredentials => 3
  | ParseURL | BackendClient => 4
  | ComposeProvider => 5
  | BuildServer => 6
  | Serve => 7
  end.

(** The position of a step in the order of the statements of the runner. *)
Definition codeOrder (s : Step) : nat :=
  match s with
  | OptionsHandling => 0
  | GenericConfig => 1
  | ClusterClients => 2
  | ParseURL => 3
  | BackendCredentials => 4
  | BackendClient => 5
  | ComposeProvider => 6
  | BuildServer => 7
  | Serve => 8
  end.

Fixpoint nondecreasing (l : list nat) : bool :=
  match l with
  | a :: (b :: _) as tl => (a <=? b)%nat && nondecreasing tl
  | _ => true
  end.

(** The steps that call a collaborator on every successful run (resolving
    the backend credentials calls none when no auth is configured). *)
Definition callingSteps : list Step :=
  [GenericConfig; ClusterClients; ParseURL; BackendClient; ComposeProvider;
   BuildServer; Serve].

Definition runsStep (tr : list Event) (s : Step) : bool :=
  existsb (fun ev => (codeOrder (stepOf ev) =? codeOrder s)%nat) tr.

(** C6.  The mapper is built with the configured discovery interval, and a
    failure of its construction is returned at once as a MapperInitError
    wrapping the cause: the failed call is the last one of the run, and no
    call has built the object client pool, a Prometheus client or the
    provider. *)
Theorem mapper_failure_is_fatal (w : World)
    (o : PrometheusAdapterServerOptions) (stopCh : StopCh) (h : list Event)
    (dc : DiscoveryClient) (interval : Duration) (r : result RESTMapper) :
  In (EvNewRESTMapper dc interval r)
     (snd (RunCustomMetricsAdapterServer w o stopCh h)) ->
  interval = DiscoveryInterval o /\
  forall cause, r = Err cause ->
    fst (RunCustomMetricsAdapterServer w o stopCh h)
      = Some (MapperInitError cause) /\
    lastEvent (snd (RunCustomMetricsAdapterServer w o stopCh h))
      = Some (EvNewRESTMapper dc interval r) /\
    Forall (fun ev => buildsPoolBackendOrProvider ev = false)
      (snd (RunCustomMetricsAdapterServer w o stopCh h)).
Proof.
  run_paths.
  all: intro H; in_cases H.
  all: split; [reflexivity | intros cause Hc].
  all: first [discriminate Hc | injection Hc as <-].
  all: repeat split; repeat constructor.
Qed.

Lemma mapper_failure_is_fatal_witness :
  let out := RunCustomMetricsAdapterServer (world ["NewRESTMapper"]) opts0
               stop0 [] in
  fst out = Some (MapperInitError (ExtError "connection refused")) /\
  snd out = [EvConfig (baseOptions 0) (Ok (mkServerConfig 1 false));
             EvInClusterConfig Lister (Ok (restConfig 3));
             EvNewDiscoveryClient (restConfig 3) (Ok (discoveryClient 5));
             EvNewRESTMapper (discoveryClient 5) (10 * Minute)%Z
               (Err (ExtError "connection refused"))].
Proof.
  split; [ | reflexivity].
  apply (mapper_failure_is_fatal (world ["NewRESTMapper"]) opts0 stop0 []
           (discoveryClient 5) (10 * Minute)%Z
           (Err (ExtError "connection refused"))).
  - in_trace.
  - reflexivity.
Defined.

(** The call that resolves the cluster credentials, as the lister kubeconfig
    option selects it. *)
Definition listerCredentialCall (o : PrometheusAdapterServerOptions)
    (r : result RestConfig) : Event :=
  if (RemoteKubeConfigFile o =? "")%string
  then EvInClusterConfig Lister r
  else EvClientConfig Lister (RemoteKubeConfigFile o) r.

Definition isListerCredentialCall (ev : Event) : bool :=
  match ev with
  | EvClientConfig Lister _ _ | EvInClusterConfig Lister _ => true
  | _ => false
  end.



(** C7.  The runner parses the configured Prometheus URL.  When the parse
    fails, the run ends there with an InvalidURL error wrapping the cause,
    and no Prometheus credential has been resolved and no Prometheus client
    built.  When a generic API client is built, its base URL is the parse
    result itself, query part included. *)
Theorem prometheus_url_parse (w : World)
    (o : PrometheusAdapterServerOptions) (stopCh : StopCh) (h : list Event) :
  (forall raw r,
     In (EvURLParse raw r)
        (snd (RunCustomMetricsAdapterServer w o stopCh h)) ->
     raw = PrometheusURL o /\ r = url_Parse w (PrometheusURL o) /\
     forall cause, r = Err cause ->
       fst (RunCustomMetricsAdapterServer w o stopCh h)
         = Some (InvalidURL cause) /\
       lastEvent (snd (RunCustomMetricsAdapterServer w o stopCh h))
         = Some (EvURLParse raw r) /\
       Forall (fun ev => backendClientCall ev = false)
         (snd (RunCustomMetricsAdapterServer w o stopCh h))) /\
  (forall g,
     In (EvNewGenericAPIClient g)
        (snd (RunCustomMetricsAdapterServer w o stopCh h)) ->
     url_Parse w (PrometheusURL o) = Ok (apiBaseURL g) /\
     forall u, url_Parse w (PrometheusURL o) = Ok u ->
       RawQuery (apiBaseURL g) = RawQuery u).
Proof.
  split.
  - run_paths.
    all: intros raw r H; in_cases H.
    all: split; [reflexivity | split; [congruence | intros cause Hc]].
    all: first [discriminate Hc | injection Hc as <-].
    all: repeat split; repeat constructor.
  - run_paths.
    all: intros g H; in_cases H.
    all: cbn; split; [reflexivity | intros u Hu; congruence].
Qed.

Lemma prometheus_url_parse_witness :
  let o := withPrometheusURL ":foo" opts0 in
  let o' := withPrometheusURL "https://prom.example:9090/?timeout=30s" opts0 in
  let g := NewGenericAPIClient (Some DefaultClient)
             (mkURL "https" "" "prom.example:9090" "/" "timeout=30s" "") in
  fst (RunCustomMetricsAdapterServer (world []) o stop0 [])
    = Some (InvalidURL (ExtError "parse :foo: missing protocol scheme")) /\
  url_Parse (world []) (PrometheusURL o') = Ok (apiBaseURL g).
Proof.
  split.
  - apply (proj1 (prometheus_url_parse (world [])
                    (withPrometheusURL ":foo" opts0) stop0 [])
             ":foo" (Err (ExtError "parse :foo: missing protocol scheme"))).
    + in_trace.
    + reflexivity.
  - apply (proj2 (prometheus_url_parse (world [])
             (withPrometheusURL "https://prom.example:9090/?timeout=30s" opts0)
             stop0 [])).
    in_trace.
Defined.

(** C8.  The tag given to the instrumentation layer is the [String]
    rendering of the parsed base URL; it is the configured text exactly when
    the URL survives parsing and printing unchanged. *)
Theorem instrumentation_tag (w : World) (o : PrometheusAdapterServerOptions)
    (stopCh : StopCh) (h : list Event) (i : InstrumentedClient) :
  In (EvInstrument i) (snd (RunCustomMetricsAdapterServer w o stopCh h)) ->
  exists u,
    url_Parse w (PrometheusURL o) = Ok u /\
    apiBaseURL (instrumentedInner i) = u /\
    serverName i = URL_String w u /\
    (serverName i = PrometheusURL o <-> URL_String w u = PrometheusURL o).
Proof.
  run_paths.
  all: intro H; in_cases H.
  all: eexists; cbn; repeat split; auto.
Qed.

Lemma instrumentation_tag_witness :
  let o := withPrometheusURL "https://prom.example:9090" opts0 in
  let u := mkURL "https" "" "prom.example:9090" "" "" "" in
  let i := InstrumentGenericAPIClient
             (NewGenericAPIClient (Some DefaultClient) u)
             "https://prom.example:9090" in
  exists u',
    url_Parse (world []) (PrometheusURL o) = Ok u' /\
    apiBaseURL (instrumentedInner i) = u' /\
    serverName i = URL_String (world []) u' /\
    (serverName i = PrometheusURL o
       <-> URL_String (world []) u' = PrometheusURL o).
Proof.
  apply (instrumentation_tag (world [])
           (withPrometheusURL "https://prom.example:9090" opts0) stop0 []).
  in_trace.
Defined.

(** The tag is not always the configured text: net/url puts the scheme in
    lower case, so this URL parses, and its tag differs from what was
    configured. *)
Lemma instrumentation_tag_counterexample :
  let o := withPrometheusURL "HTTPS://prom.example:9090" opts0 in
  exists i,
    In (EvInstrument i)
       (snd (RunCustomMetricsAdapterServer (world []) o stop0 [])) /\
    url_Parse (world []) (PrometheusURL o)
      = Ok (apiBaseURL (instrumentedInner i)) /\
    serverName i = "https://prom.example:9090" /\
    serverName i <> PrometheusURL o.
Proof.
  exists (InstrumentGenericAPIClient
            (NewGenericAPIClient (Some DefaultClient)
               (mkURL "https" "" "prom.example:9090" "" "" ""))
            "https://prom.example:9090").
  split; [in_trace | ].
  split; [reflexivity | ].
  split; [reflexivity | discriminate].
Qed.

Lemma append_empty_r (s : string) : (s ++ "")%string = s.
Proof. induction s as [ | a s IH]; cbn; [ | rewrite IH]; reflexivity. Qed.

(** C10.  When the Prometheus URL does not parse, the returned error is
    formatted with the nil parse result as the operand of [%q] and the parse
    error as the operand of [%v]: its text is [invalid Prometheus URL <nil>: ]
    followed by the text of the parse error, so the configured URL occurs in
    it only as far as the parse error quotes it. *)
Theorem invalid_url_message (w : World) (o : PrometheusAdapterServerOptions)
    (stopCh : StopCh) (h : list Event) (raw : string) (cause : error) :
  In (EvURLParse raw (Err cause))
     (snd (RunCustomMetricsAdapterServer w o stopCh h)) ->
  fst (RunCustomMetricsAdapterServer w o stopCh h)
    = Some (Errorf "invalid Prometheus URL %q: %v"
              [ArgURL None; ArgErr cause]) /\
  forall e, fst (RunCustomMetricsAdapterServer w o stopCh h) = Some e ->
    Error w e = ("invalid Prometheus URL <nil>: " ++ Error w cause)%string.
Proof.
  run_paths.
  all: intro H; in_cases H.
  all: split; [reflexivity | ].
  all: intros e' He; injection He as <-; cbn.
  all: now rewrite append_empty_r.
Qed.

Lemma invalid_url_message_witness :
  let o := withPrometheusURL ":foo" opts0 in
  let out := RunCustomMetricsAdapterServer (world []) o stop0 [] in
  fst out = Some (Errorf "invalid Prometheus URL %q: %v"
              [ArgURL None;
               ArgErr (ExtError "parse :foo: missing protocol scheme")]) /\
  forall e, fst out = Some e ->
    Error (world []) e
      = ("invalid Prometheus URL <nil>: "
         ++ Error (world [])
              (ExtError "parse :foo: missing protocol scheme"))%string.
Proof.
  apply (invalid_url_message (world []) (withPrometheusURL ":foo" opts0)
           stop0 [] ":foo").
  in_trace.
Defined.

(** The parse error of net/url quotes the text it was given, and the runner
    appends that error: the configured URL is in the message. *)
Lemma invalid_url_message_counterexample :
  let o := withPrometheusURL ":foo" opts0 in
  exists e,
    fst (RunCustomMetricsAdapterServer (world []) o stop0 []) = Some e /\
    Error (world []) e
      = "invalid Prometheus URL <nil>: parse :foo: missing protocol scheme" /\
    Contains (Error (world []) e) (PrometheusURL o) = true.
Proof.
  eexists. split; [reflexivity | ]. split; reflexivity.
Qed.

(** C2.  The calls of a run follow the order of the runner's statements:
    generic server configuration, cluster clients, parse of the Prometheus
    URL, backend credentials, backend client, provider, server construction,
    serving.  A call answered with an error is the last call of the run and
    the run returns an error; a run that returns no error has gone through
    every step and ended by serving. *)
Theorem startup_order (w : World) (o : PrometheusAdapterServerOptions)
    (stopCh : StopCh) (h : list Event) :
  nondecreasing
    (map (fun ev => codeOrder (stepOf ev))
       (snd (RunCustomMetricsAdapterServer w o stopCh h))) = true /\
  (forall ev,
     In ev (snd (RunCustomMetricsAdapterServer w o stopCh h)) ->
     isFailure ev = true ->
     fst (RunCustomMetricsAdapterServer w o stopCh h) <> None /\
     lastEvent (snd (RunCustomMetricsAdapterServer w o stopCh h)) = Some ev) /\
  (fst (RunCustomMetricsAdapterServer w o stopCh h) = None ->
     forallb (runsStep (snd (RunCustomMetricsAdapterServer w o stopCh h)))
       callingSteps = true /\
     exists s,
       lastEvent (snd (RunCustomMetricsAdapterServer w o stopCh h))
         = Some (EvRun s stopCh None)).
Proof.
  run_paths.
  all: split; [reflexivity | split].
  all: try (intros ev H Hf; in_cases H; cbn in Hf; try discriminate Hf).
  all: try (split; [discriminate | reflexivity]).
  all: intro Hnone; try discriminate Hnone.
  all: split; [reflexivity | eexists; reflexivity].
Qed.

Lemma startup_order_witness :
  let out := RunCustomMetricsAdapterServer (world ["TransportFor"])
               (withPrometheusAuth true "" opts0) stop0 [] in
  fst out <> None /\
  lastEvent (snd out)
    = Some (EvTransportFor (restConfig 3)
              (Err (ExtError
                 "tls: failed to find any PEM data in certificate input"))).
Proof.
  apply (proj1 (proj2 (startup_order (world ["TransportFor"])
                         (withPrometheusAuth true "" opts0) stop0 []))).
  - in_trace.
  - reflexivity.
Defined.

(** In the sequence of section 4.5 the backend credentials are resolved
    before the backend client factory starts, and that factory starts by
    parsing the base URL.  The runner parses first: the calls of a run with
    in-cluster Prometheus auth are out of that order, and with an unparsable
    URL and conflicting auth options the run fails on the URL, not on the
    conflict. *)
Lemma startup_order_counterexample :
  nondecreasing
    (map (fun ev => specOrder (stepOf ev))
       (snd (RunCustomMetricsAdapterServer (world [])
               (withPrometheusAuth true "" opts0) stop0 []))) = false /\
  fst (RunCustomMetricsAdapterServer (world [])
         (withPrometheusAuth true "/etc/prom.kubeconfig"
            (withPrometheusURL ":foo" opts0)) stop0 [])
    = Some (InvalidURL (ExtError "parse :foo: missing protocol scheme")).
Proof. split; reflexivity. Qed.

(** C4.  With both Prometheus auth options set the command always fails, and
    never builds a Prometheus client, the provider or the server; but the
    conflict is found by [makeHTTPClient] inside the runner: when the run
    gets as far as a parsed URL, the options have been completed and
    validated, the server configuration, the cluster credentials, the
    discovery client, the mapper and the client pool have been built, and
    the error is the ConfigConflict. *)
Theorem auth_conflict_found_by_runner (w : World)
    (o : PrometheusAdapterServerOptions) (args : list string)
    (stopCh : StopCh) (h : list Event) :
  PrometheusAuthInCluster o = true ->
  PrometheusAuthConf o <> "" ->
  fst (RunE w o args stopCh h) <> None /\
  Forall (fun ev => afterBackendCredentials ev = false
                    /\ backendClientCall ev = false)
    (snd (RunE w o args stopCh h)) /\
  forall u,
    In (EvURLParse (PrometheusURL o) (Ok u)) (snd (RunE w o args stopCh h)) ->
    fst (RunE w o args stopCh h) = Some ConfigConflict /\
    lastEvent (snd (RunE w o args stopCh h))
      = Some (EvURLParse (PrometheusURL o) (Ok u)) /\
    map stepOf (snd (RunE w o args stopCh h))
      = [OptionsHandling; OptionsHandling; GenericConfig; ClusterClients;
         ClusterClients; ClusterClients; ClusterClients; ParseURL].
Proof.
  intros Hin Hconf. apply eqb_empty_false in Hconf.
  unfold RunE, RunCustomMetricsAdapterServer, makeHTTPClient.
  rewrite Hin, Hconf. run_paths.
  all: split; [discriminate | split; [repeat constructor | ]].
  all: intros u H; in_cases H.
  all: repeat split.
Qed.

Lemma auth_conflict_found_by_runner_witness :
  let o := withPrometheusAuth true "/etc/prom.kubeconfig" opts0 in
  fst (RunE (world []) o [] stop0 []) <> None.
Proof.
  apply (auth_conflict_found_by_runner (world [])
           (withPrometheusAuth true "/etc/prom.kubeconfig" opts0) [] stop0 []).
  - reflexivity.
  - discriminate.
Defined.

(** Validation accepts the conflicting options, and the cluster credentials,
    the discovery client, the mapper and the client pool are built before
    the run fails on the conflict. *)
Lemma auth_conflict_counterexample :
  let o := withPrometheusAuth true "/etc/prom.kubeconfig" opts0 in
  let out := RunE (world []) o [] stop0 [] in
  fst out = Some ConfigConflict /\
  In (EvOptsValidate (baseOptions 0) [] None) (snd out) /\
  filter clusterStartupWork (snd out)
    = [EvInClusterConfig Lister (Ok (restConfig 3));
       EvNewDiscoveryClient (restConfig 3) (Ok (discoveryClient 5));
       EvNewRESTMapper (discoveryClient 5) (10 * Minute)%Z (Ok (restMapper 6));
       EvNewClientPool (NewClientPool (restConfig 3) (restMapper 6))].
Proof.
  split; [reflexivity | split; [in_trace | reflexivity]].
Qed.

(** ** Further properties of the command handler and the runner *)

(** RunE stops at the first of [Complete] and [Validate] that fails: the
    error is returned as it is, and the failed call is the only one after
    the ones before it, so the runner is not started. *)
Theorem RunE_stops_at_failed_options (w : World)
    (o : PrometheusAdapterServerOptions) (args : list string)
    (stopCh : StopCh) (h : list Event) :
  (forall b e,
     In (EvOptsComplete b (Some e)) (snd (RunE w o args stopCh h)) ->
     RunE w o args stopCh h
       = (Some e,
          [EvOptsComplete (CustomMetricsAdapterServerOptions o) (Some e)])) /\
  (forall b a e,
     In (EvOptsValidate b a (Some e)) (snd (RunE w o args stopCh h)) ->
     RunE w o args stopCh h
       = (Some e,
          [EvOptsComplete (CustomMetricsAdapterServerOptions o) None;
           EvOptsValidate (CustomMetricsAdapterServerOptions o) args
             (Some e)])).
Proof.
  split.
  - run_paths.
    all: intros b e' H; in_cases H; reflexivity.
  - run_paths.
    all: intros b a e' H; in_cases H; reflexivity.
Qed.

Lemma RunE_stops_at_failed_options_witness :
  RunE (world ["Validate"]) opts0 ["extra"] stop0 []
    = (Some (ExtError "invalid options"),
       [EvOptsComplete (baseOptions 0) None;
        EvOptsValidate (baseOptions 0) ["extra"]
          (Some (ExtError "invalid options"))]).
Proof.
  apply (proj2 (RunE_stops_at_failed_options (world ["Validate"]) opts0
                  ["extra"] stop0 []) (baseOptions 0) ["extra"]).
  in_trace.
Defined.

(** When the options complete and validate, RunE is the runner: it returns
    the runner's error unchanged (nil for nil), and its calls are the two
    option calls followed by the runner's, the runner seeing both in its
    history. *)
Theorem RunE_returns_runner_result (w : World)
    (o : PrometheusAdapterServerOptions) (args : list string)
    (stopCh : StopCh) (h : list Event) :
  let b := CustomMetricsAdapterServerOptions o in
  let prefix := [EvOptsComplete b None; EvOptsValidate b args None] in
  opts_Complete w h b = None ->
  opts_Validate w (h ++ [EvOptsComplete b None]) b args = None ->
  RunE w o args stopCh h
    = (fst (RunCustomMetricsAdapterServer w o stopCh (h ++ prefix)),
       prefix ++ snd (RunCustomMetricsAdapterServer w o stopCh (h ++ prefix))).
Proof.
  intros b prefix Hc Hv. subst b prefix.
  unfold RunE, bind, ret, call_Complete, call_Validate.
  cbv beta zeta. rewrite Hc. cbv beta iota zeta. rewrite Hv.
  cbv beta iota zeta. rewrite <- app_assoc. change ([?a] ++ [?b]) with [a; b].
  destruct (RunCustomMetricsAdapterServer w o stopCh _) as [[e | ] tr];
    cbn; now rewrite app_nil_r.
Qed.

Lemma RunE_returns_runner_result_witness :
  let prefix := [EvOptsComplete (baseOptions 0) None;
                 EvOptsValidate (baseOptions 0) [] None] in
  RunE (world ["Run"]) opts0 [] stop0 []
    = (fst (RunCustomMetricsAdapterServer (world ["Run"]) opts0 stop0 prefix),
       prefix
       ++ snd (RunCustomMetricsAdapterServer (world ["Run"]) opts0 stop0
                 prefix)).
Proof.
  apply (RunE_returns_runner_result (world ["Run"]) opts0 [] stop0 []);
    reflexivity.
Defined.

(** The error the runner returns for a call answered with an error: the
    errors of [Config], [New] and [Run], and those of [makeHTTPClient], are
    returned as they are; the others are wrapped with what was being
    built. *)
Definition returnedError (ev : Event) : option error :=
  match ev with
  | EvConfig _ (Err e) => Some e
  | EvClientConfig Lister _ (Err e) | EvInClusterConfig Lister (Err e) =>
      Some (CredentialLoadError_lister e)
  | EvNewDiscoveryClient _ (Err e) => Some (DiscoveryClientError e)
  | EvNewRESTMapper _ _ (Err e) => Some (MapperInitError e)
  | EvURLParse _ (Err e) => Some (InvalidURL e)
  | EvClientConfig PromAuth path (Err e) =>
      Some (CredentialLoadError_path path e)
  | EvInClusterConfig PromAuth (Err e) =>
      Some (CredentialLoadError_inCluster e)
  | EvTransportFor _ (Err e) => Some (TransportError e)
  | EvServerNew _ _ _ (Err e) => Some e
  | EvRun _ _ (Some e) => Some e
  | _ => None
  end.

(** Every error of the runner has a cause.  A call answered with an error
    makes the runner return the error [returnedError] gives for it; and an
    error returned by the runner comes from such a call, or else no call
    failed and it is the ConfigConflict of two Prometheus auth options set
    together. *)
Theorem runner_errors_have_a_cause (w : World)
    (o : PrometheusAdapterServerOptions) (stopCh : StopCh) (h : list Event) :
  (forall ev,
     In ev (snd (RunCustomMetricsAdapterServer w o stopCh h)) ->
     isFailure ev = true ->
     fst (RunCustomMetricsAdapterServer w o stopCh h) = returnedError ev) /\
  (forall e,
     fst (RunCustomMetricsAdapterServer w o stopCh h) = Some e ->
     (exists ev,
        lastEvent (snd (RunCustomMetricsAdapterServer w o stopCh h)) = Some ev
        /\ isFailure ev = true /\ returnedError ev = Some e)
     \/ (e = ConfigConflict
         /\ PrometheusAuthInCluster o = true
         /\ PrometheusAuthConf o <> ""
         /\ forallb (fun ev => negb (isFailure ev))
              (snd (RunCustomMetricsAdapterServer w o stopCh h)) = true)).
Proof.
  split.
  - run_paths.
    all: intros ev H Hf; in_cases H; cbn in Hf; try discriminate Hf.
    all: reflexivity.
  - run_paths.
    all: intros e' He; try discriminate He; injection He as <-.
    all: try (left; eexists; repeat split; reflexivity).
    all: right; repeat split.
    all: match goal with
         | H : (?b && negb (?s =? "")%string)%bool = true |- _ =>
             apply andb_prop in H; destruct H as [Hb Hs];
             apply negb_true_iff in Hs; apply String.eqb_neq in Hs
         end; assumption.
Qed.

Lemma runner_errors_have_a_cause_witness :
  fst (RunCustomMetricsAdapterServer (world ["NewDiscoveryClientForConfig"])
         opts0 stop0 [])
    = Some (DiscoveryClientError
              (ExtError "host must be a URL or a host:port pair")).
Proof.
  apply (proj1 (runner_errors_have_a_cause
                  (world ["NewDiscoveryClientForConfig"]) opts0 stop0 [])
           (EvNewDiscoveryClient (restConfig 3)
              (Err (ExtError "host must be a URL or a host:port pair")))).
  - in_trace.
  - reflexivity.
Defined.

(** The cluster clients are built from one configuration: the discovery
    client from the configuration the credential call returned, the mapper
    from that discovery client, and the pool from the same configuration and
    that mapper. *)
Theorem cluster_clients_share_config (w : World)
    (o : PrometheusAdapterServerOptions) (stopCh : StopCh) (h : list Event) :
  (forall c r,
     In (EvNewDiscoveryClient c r)
        (snd (RunCustomMetricsAdapterServer w o stopCh h)) ->
     In (listerCredentialCall o (Ok c))
        (snd (RunCustomMetricsAdapterServer w o stopCh h))) /\
  (forall dc d r,
     In (EvNewRESTMapper dc d r)
        (snd (RunCustomMetricsAdapterServer w o stopCh h)) ->
     exists c,
       In (EvNewDiscoveryClient c (Ok dc))
          (snd (RunCustomMetricsAdapterServer w o stopCh h))) /\
  (forall p,
     In (EvNewClientPool p)
        (snd (RunCustomMetricsAdapterServer w o stopCh h)) ->
     In (listerCredentialCall o (Ok (poolConfig p)))
        (snd (RunCustomMetricsAdapterServer w o stopCh h)) /\
     exists dc,
       In (EvNewDiscoveryClient (poolConfig p) (Ok dc))
          (snd (RunCustomMetricsAdapterServer w o stopCh h)) /\
       In (EvNewRESTMapper dc (DiscoveryInterval o) (Ok (poolMapper p)))
          (snd (RunCustomMetricsAdapterServer w o stopCh h))).
Proof.
  unfold listerCredentialCall.
  split; [ | split].
  - run_paths.
    all: intros c r H; in_cases H.
    all: cbn; auto.
  - run_paths.
    all: intros dc d r H; in_cases H.
    all: eexists; cbn; auto.
  - run_paths.
    all: intros p H; in_cases H.
    all: cbn; split; [auto | eexists; split; auto 6].
Qed.

Lemma cluster_clients_share_config_witness :
  In (EvInClusterConfig Lister (Ok (restConfig 3)))
     (snd (RunCustomMetricsAdapterServer (world ["NewRESTMapper"]) opts0
             stop0 [])).
Proof.
  apply (proj1 (cluster_clients_share_config (world ["NewRESTMapper"]) opts0
                  stop0 [])
           (restConfig 3) (Ok (discoveryClient 5))).
  in_trace.
Defined.

(** Building the client pool cannot stop the run: once the mapper is built,
    the next two calls build the pool and parse the Prometheus URL.  The
    error test that follows [NewClientPool] in the source never fires. *)
Theorem client_pool_never_stops_the_run (w : World)
    (o : PrometheusAdapterServerOptions) (stopCh : StopCh) (h : list Event)
    (dc : DiscoveryClient) (d : Duration) (m : RESTMapper) :
  In (EvNewRESTMapper dc d (Ok m))
     (snd (RunCustomMetricsAdapterServer w o stopCh h)) ->
  exists c,
    nth_error (snd (RunCustomMetricsAdapterServer w o stopCh h)) 4
      = Some (EvNewClientPool (NewClientPool c m)) /\
    nth_error (snd (RunCustomMetricsAdapterServer w o stopCh h)) 5
      = Some (EvURLParse (PrometheusURL o) (url_Parse w (PrometheusURL o))).
Proof.
  run_paths.
  all: intro H; in_cases H.
  all: eexists; split; reflexivity.
Qed.

Lemma client_pool_never_stops_the_run_witness :
  exists c,
    nth_error (snd (RunCustomMetricsAdapterServer (world ["New"]) opts0
                      stop0 [])) 4
      = Some (EvNewClientPool (NewClientPool c (restMapper 6))) /\
    nth_error (snd (RunCustomMetricsAdapterServer (world ["New"]) opts0
                      stop0 [])) 5
      = Some (EvURLParse (PrometheusURL opts0)
                (url_Parse (world ["New"]) (PrometheusURL opts0))).
Proof.
  apply (client_pool_never_stops_the_run (world ["New"]) opts0 stop0 []
           (discoveryClient 5) (10 * Minute)%Z).
  in_trace.
Defined.

(** Membership in a list of calls written out. *)
Ltac in_list := cbn; repeat first [left; reflexivity | right].

(** Calls that resolve the Prometheus credentials. *)
Definition isBackendCredentialCall (ev : Event) : bool :=
  match ev with
  | EvClientConfig PromAuth _ _ | EvInClusterConfig PromAuth _
  | EvTransportFor _ _ => true
  | _ => false
  end.

(** The HTTP client of the generic API client is never nil.  With no
    Prometheus auth option set it is [http.DefaultClient] and no credential
    was looked up; otherwise it is a client on the transport derived from
    the configuration the selected source returned: the auth kubeconfig when
    its path is set, the in-cluster environment when it is not. *)
Theorem api_client_http_client (w : World)
    (o : PrometheusAdapterServerOptions) (stopCh : StopCh) (h : list Event)
    (g : GenericAPIClient) :
  In (EvNewGenericAPIClient g)
     (snd (RunCustomMetricsAdapterServer w o stopCh h)) ->
  (PrometheusAuthInCluster o = false /\ PrometheusAuthConf o = "" /\
   apiHTTPClient g = Some DefaultClient /\
   forallb (fun ev => negb (isBackendCredentialCall ev))
     (snd (RunCustomMetricsAdapterServer w o stopCh h)) = true)
  \/
  (exists c t,
     apiHTTPClient g = Some (Client t) /\
     In (EvTransportFor c (Ok t))
        (snd (RunCustomMetricsAdapterServer w o stopCh h)) /\
     In (if (PrometheusAuthConf o =? "")%string
         then EvInClusterConfig PromAuth (Ok c)
         else EvClientConfig PromAuth (PrometheusAuthConf o) (Ok c))
        (snd (RunCustomMetricsAdapterServer w o stopCh h)) /\
     (PrometheusAuthConf o = "" -> PrometheusAuthInCluster o = true)).
Proof.
  run_paths.
  all: intro H; in_cases H.
  all: cbn.
  all: repeat match goal with
         | H : (_ && _)%bool = true |- _ =>
             apply andb_prop in H; destruct H
         | H : negb _ = true |- _ => apply negb_true_iff in H
         | H : negb _ = false |- _ => apply negb_false_iff in H
         end.
  all: try (left; repeat split;
            first [assumption | now apply String.eqb_eq | reflexivity]).
  all: right; do 2 eexists; split; [reflexivity | ].
  all: split; [in_list | ].
  all: try match goal with
           | H : (PrometheusAuthConf _ =? "")%string = _ |- _ => rewrite H
           end.
  all: split; [in_list | ].
  all: intro He;
    try (exfalso;
         match goal with
         | H : (_ =? "")%string = false |- _ =>
             apply String.eqb_neq in H; contradiction
         end).
  all: match goal with
       | |- ?b = true => destruct b; [reflexivity | ]
       end.
  all: cbn in *; congruence.
Qed.

Lemma api_client_http_client_witness :
  let o := withPrometheusAuth false "/etc/prom.kubeconfig" opts0 in
  let g := NewGenericAPIClient (Some (Client (transport 4)))
             (mkURL "https" "" "localhost" "" "" "") in
  (PrometheusAuthInCluster o = false /\ PrometheusAuthConf o = "" /\
   apiHTTPClient g = Some DefaultClient /\
   forallb (fun ev => negb (isBackendCredentialCall ev))
     (snd (RunCustomMetricsAdapterServer (world []) o stop0 [])) = true)
  \/
  (exists c t,
     apiHTTPClient g = Some (Client t) /\
     In (EvTransportFor c (Ok t))
        (snd (RunCustomMetricsAdapterServer (world []) o stop0 [])) /\
     In (if (PrometheusAuthConf o =? "")%string
         then EvInClusterConfig PromAuth (Ok c)
         else EvClientConfig PromAuth (PrometheusAuthConf o) (Ok c))
        (snd (RunCustomMetricsAdapterServer (world []) o stop0 [])) /\
     (PrometheusAuthConf o = "" -> PrometheusAuthInCluster o = true)).
Proof.
  apply (api_client_http_client (world [])
           (withPrometheusAuth false "/etc/prom.kubeconfig" opts0) stop0 []).
  in_trace.
Defined.

(** The paths of the runner, with the run named once: every goal starts
    from an equation giving the outcome and the calls of its path. *)
Ltac run_paths_of out :=
  match goal with
  | |- context [RunCustomMetricsAdapterServer ?w ?o ?s ?h] =>
      remember (RunCustomMetricsAdapterServer w o s h) as out eqn:Hout;
      revert Hout; run_paths; intros ->; cbn
  end.

(** The server is built from the configuration [Config] returned with
    metrics turned on, whatever the flag was before, under the name
    [prometheus-custom-metrics-adapter], and around the provider that was
    composed; nothing else of the configuration is changed. *)
Theorem server_built_with_metrics_enabled (w : World)
    (o : PrometheusAdapterServerOptions) (stopCh : StopCh) (h : list Event)
    (cc : CompletedConfig) (name : string) (p : Provider) (r : result Server) :
  In (EvServerNew cc name p r)
     (snd (RunCustomMetricsAdapterServer w o stopCh h)) ->
  name = "prometheus-custom-metrics-adapter" /\
  EnableMetrics (completed cc) = true /\
  In (EvNewPrometheusProvider p)
     (snd (RunCustomMetricsAdapterServer w o stopCh h)) /\
  exists config,
    In (EvConfig (CustomMetricsAdapterServerOptions o) (Ok config))
       (snd (RunCustomMetricsAdapterServer w o stopCh h)) /\
    configId (completed cc) = configId config.
Proof.
  run_paths_of out.
  all: intro H; in_cases H.
  all: split; [reflexivity | split; [reflexivity | split; [in_list | ]]].
  all: eexists; split; [in_list | reflexivity].
Qed.

Lemma server_built_with_metrics_enabled_witness :
  let p := NewPrometheusProvider (restMapper 6)
             (NewClientPool (restConfig 3) (restMapper 6))
             (NewClientForAPI
                (InstrumentGenericAPIClient
                   (NewGenericAPIClient (Some DefaultClient)
                      (mkURL "https" "" "localhost" "" "" ""))
                   "https://localhost"))
             "" (10 * Minute)%Z (5 * Minute)%Z stop0 in
  let tr := snd (RunCustomMetricsAdapterServer (world []) opts0 stop0 []) in
  In (EvServerNew (Complete (mkServerConfig 1 true))
        "prometheus-custom-metrics-adapter" p (Ok (apiServer 7))) tr /\
  In (EvNewPrometheusProvider p) tr.
Proof.
  intros p tr.
  assert (Hin : In (EvServerNew (Complete (mkServerConfig 1 true))
                      "prometheus-custom-metrics-adapter" p
                      (Ok (apiServer 7))) tr) by in_trace.
  split; [exact Hin | ].
  exact (proj1 (proj2 (proj2
           (server_built_with_metrics_enabled (world []) opts0 stop0 []
              _ _ _ _ Hin)))).
Defined.

(** The provider is composed from the parts built before it: the mapper it
    is given is the mapper inside its client pool, its Prometheus client
    wraps the instrumented client, which wraps the generic client, each
    built by a call of the run, and the label prefix, the two intervals and
    the stop channel are those of the options and of the caller. *)
Theorem provider_composition (w : World)
    (o : PrometheusAdapterServerOptions) (stopCh : StopCh) (h : list Event)
    (p : Provider) :
  In (EvNewPrometheusProvider p)
     (snd (RunCustomMetricsAdapterServer w o stopCh h)) ->
  provMapper p = poolMapper (provPool p) /\
  provLabelPrefix p = LabelPrefix o /\
  provRelistInterval p = MetricsRelistInterval o /\
  provRateInterval p = RateInterval o /\
  provStopCh p = stopCh /\
  In (EvNewClientPool (provPool p))
     (snd (RunCustomMetricsAdapterServer w o stopCh h)) /\
  In (EvNewClientForAPI (provClient p))
     (snd (RunCustomMetricsAdapterServer w o stopCh h)) /\
  In (EvInstrument (promAPI (provClient p)))
     (snd (RunCustomMetricsAdapterServer w o stopCh h)) /\
  In (EvNewGenericAPIClient (instrumentedInner (promAPI (provClient p))))
     (snd (RunCustomMetricsAdapterServer w o stopCh h)).
Proof.
  run_paths_of out.
  all: intro H; in_cases H.
  all: cbn; repeat split; in_list.
Qed.

Lemma provider_composition_witness :
  let p := NewPrometheusProvider (restMapper 6)
             (NewClientPool (restConfig 3) (restMapper 6))
             (NewClientForAPI
                (InstrumentGenericAPIClient
                   (NewGenericAPIClient (Some DefaultClient)
                      (mkURL "https" "" "localhost" "" "" ""))
                   "https://localhost"))
             "" (10 * Minute)%Z (5 * Minute)%Z stop0 in
  let tr := snd (RunCustomMetricsAdapterServer (world ["Run"]) opts0 stop0
                   []) in
  In (EvNewPrometheusProvider p) tr /\ In (EvNewClientPool (provPool p)) tr.
Proof.
  intros p tr.
  assert (Hin : In (EvNewPrometheusProvider p) tr) by in_trace.
  split; [exact Hin | ].
  exact (proj1 (proj2 (proj2 (proj2 (proj2 (proj2
           (provider_composition (world ["Run"]) opts0 stop0 [] p
              Hin))))))).
Defined.



(** When the Prometheus auth kubeconfig cannot be loaded, the text of the
    returned error names the configured path, quoted, and ends with the text
    of the cause. *)
Theorem auth_config_error_names_the_path (w : World) (kubeConfigPath : string)
    (h : list Event) (cause : error) :
  kubeConfigPath <> "" ->
  clientcmd_ClientConfig w h kubeConfigPath = Err cause ->
  exists e,
    fst (makeHTTPClient w false kubeConfigPath h) = (None, Some e) /\
    Error w e
      = ("unable to construct  auth configuration from "
         ++ strconv_Quote w kubeConfigPath
         ++ " for connecting to Prometheus: " ++ Error w cause)%string.
Proof.
  intros Hp Hc. unfold makeHTTPClient. unfold_calls.
  rewrite (eqb_empty_false _ Hp). cbn. rewrite Hc. cbn.
  eexists. split; [reflexivity | ].
  cbn. now rewrite append_empty_r.
Qed.

Lemma auth_config_error_names_the_path_witness :
  exists e,
    fst (makeHTTPClient (world ["ClientConfig"]) false "/etc/prom.kubeconfig"
           [])
      = (None, Some e) /\
    Error (world ["ClientConfig"]) e
      = ("unable to construct  auth configuration from "
         ++ strconv_Quote (world ["ClientConfig"]) "/etc/prom.kubeconfig"
         ++ " for connecting to Prometheus: "
         ++ Error (world ["ClientConfig"])
              (ExtError
                 "stat /etc/prom.kubeconfig: no such file or directory"))%string.
Proof.
  apply auth_config_error_names_the_path; [discriminate | reflexivity].
Defined.


(** ** The flags of the command (start.go:68-91)

    pflag's [StringVar], [DurationVar] and [BoolVar] bind a name to a
    variable and write the default into it; setting the flag parses the text
    to the flag's type and stores the value in the variable.  Here a value
    is already of its type, and the variable is a field of the options. *)
Inductive FlagValue :=
| StringValue (s : string)
| DurationValue (d : Duration)
| BoolValue (b : bool).

Record Flag := mkFlag {
  flagName : string;
  flagDefValue : FlagValue;
  flagStore : FlagValue -> PrometheusAdapterServerOptions ->
              option PrometheusAdapterServerOptions
}.

Definition StringVar
    (p : string -> PrometheusAdapterServerOptions ->
         PrometheusAdapterServerOptions)
    (name : string) (value : string) : Flag :=
  mkFlag name (StringValue value)
    (fun v o => match v with StringValue s => Some (p s o) | _ => None end).

Definition DurationVar
    (p : Duration -> PrometheusAdapterServerOptions ->
         PrometheusAdapterServerOptions)
    (name : string) (value : Duration) : Flag :=
  mkFlag name (DurationValue value)
    (fun v o => match v with DurationValue d => Some (p d o) | _ => None end).

Definition BoolVar
    (p : bool -> PrometheusAdapterServerOptions ->
         PrometheusAdapterServerOptions)
    (name : string) (value : bool) : Flag :=
  mkFlag name (BoolValue value)
    (fun v o => match v with BoolValue b => Some (p b o) | _ => None end).

(** The fields of the options as variables to store into. *)
Definition set_RemoteKubeConfigFile (s : string)
    (o : PrometheusAdapterServerOptions) : PrometheusAdapterServerOptions :=
  mkOptions (CustomMetricsAdapterServerOptions o) s (MetricsRelistInterval o)
    (RateInterval o) (DiscoveryInterval o) (PrometheusURL o)
    (PrometheusAuthInCluster o) (PrometheusAuthConf o) (LabelPrefix o).

Definition set_MetricsRelistInterval (d : Duration)
    (o : PrometheusAdapterServerOptions) : PrometheusAdapterServerOptions :=
  mkOptions (CustomMetricsAdapterServerOptions o) (RemoteKubeConfigFile o) d
    (RateInterval o) (DiscoveryInterval o) (PrometheusURL o)
    (PrometheusAuthInCluster o) (PrometheusAuthConf o) (LabelPrefix o).

Definition set_RateInterval (d : Duration)
    (o : PrometheusAdapterServerOptions) : PrometheusAdapterServerOptions :=
  mkOptions (CustomMetricsAdapterServerOptions o) (RemoteKubeConfigFile o)
    (MetricsRelistInterval o) d (DiscoveryInterval o) (PrometheusURL o)
    (PrometheusAuthInCluster o) (PrometheusAuthConf o) (LabelPrefix o).

Definition set_DiscoveryInterval (d : Duration)
    (o : PrometheusAdapterServerOptions) : PrometheusAdapterServerOptions :=
  mkOptions (CustomMetricsAdapterServerOptions o) (RemoteKubeConfigFile o)
    (MetricsRelistInterval o) (RateInterval o) d (PrometheusURL o)
    (PrometheusAuthInCluster o) (PrometheusAuthConf o) (LabelPrefix o).

Definition set_PrometheusURL (s : string)
    (o : PrometheusAdapterServerOptions) : PrometheusAdapterServerOptions :=
  mkOptions (CustomMetricsAdapterServerOptions o) (RemoteKubeConfigFile o)
    (MetricsRelistInterval o) (RateInterval o) (DiscoveryInterval o) s
    (PrometheusAuthInCluster o) (PrometheusAuthConf o) (LabelPrefix o).

Definition set_PrometheusAuthInCluster (b : bool)
    (o : PrometheusAdapterServerOptions) : PrometheusAdapterServerOptions :=
  mkOptions (CustomMetricsAdapterServerOptions o) (RemoteKubeConfigFile o)
    (MetricsRelistInterval o) (RateInterval o) (DiscoveryInterval o)
    (PrometheusURL o) b (PrometheusAuthConf o) (LabelPrefix o).

Definition set_PrometheusAuthConf (s : string)
    (o : PrometheusAdapterServerOptions) : PrometheusAdapterServerOptions :=
  mkOptions (CustomMetricsAdapterServerOptions o) (RemoteKubeConfigFile o)
    (MetricsRelistInterval o) (RateInterval o) (DiscoveryInterval o)
    (PrometheusURL o) (PrometheusAuthInCluster o) s (LabelPrefix o).

Definition set_LabelPrefix (s : string)
    (o : PrometheusAdapterServerOptions) : PrometheusAdapterServerOptions :=
  mkOptions (CustomMetricsAdapterServerOptions o) (RemoteKubeConfigFile o)
    (MetricsRelistInterval o) (RateInterval o) (DiscoveryInterval o)
    (PrometheusURL o) (PrometheusAuthInCluster o) (PrometheusAuthConf o) s.

(** The eight flags the command adds itself, in the order of the source;
    each default is the field's value when the flag is added. *)
Definition adapterFlags (o : PrometheusAdapterServerOptions) : list Flag :=
  [ StringVar set_RemoteKubeConfigFile "lister-kubeconfig"
      (RemoteKubeConfigFile o);
    DurationVar set_MetricsRelistInterval "metrics-relist-interval"
      (MetricsRelistInterval o);
    DurationVar set_RateInterval "rate-interval" (RateInterval o);
    DurationVar set_DiscoveryInterval "discovery-interval"
      (DiscoveryInterval o);
    StringVar set_PrometheusURL "prometheus-url" (PrometheusURL o);
    BoolVar set_PrometheusAuthInCluster "prometheus-auth-incluster"
      (PrometheusAuthInCluster o);
    StringVar set_PrometheusAuthConf "prometheus-auth-config"
      (PrometheusAuthConf o);
    StringVar set_LabelPrefix "label-prefix" (LabelPrefix o) ].

(** Setting a flag by name: [None] when the command adds no flag of that
    name itself, or when the value is not of the flag's type. *)
Definition SetFlag (name : string) (v : FlagValue)
    (o : PrometheusAdapterServerOptions)
    : option PrometheusAdapterServerOptions :=
  match find (fun f => (flagName f =? name)%string) (adapterFlags o) with
  | Some f => flagStore f v o
  | None => None
  end.

(** Adding the flags leaves the options as they are: the names are distinct,
    so no flag is defined twice, and the default each flag writes into its
    variable is the value the variable already has. *)
Theorem adding_flags_keeps_options (o : PrometheusAdapterServerOptions) :
  NoDup (map flagName (adapterFlags o)) /\
  forall f, In f (adapterFlags o) -> flagStore f (flagDefValue f) o = Some o.
Proof.
  split.
  - cbn. repeat constructor; cbn; intuition discriminate.
  - intros f Hf. destruct o. cbn in Hf.
    repeat (destruct Hf as [<- | Hf]; [reflexivity | ]).
    contradiction.
Qed.

Lemma adding_flags_keeps_options_witness :
  flagStore (StringVar set_PrometheusURL "prometheus-url" "https://localhost")
    (StringValue "https://localhost") opts0 = Some opts0.
Proof.
  apply (proj2 (adding_flags_keeps_options opts0)
           (StringVar set_PrometheusURL "prometheus-url" "https://localhost")).
  cbn. auto 8.
Defined.

(** What a successful [SetFlag] has done: one of the eight stores. *)
Inductive FlagStored (o : PrometheusAdapterServerOptions)
    : string -> FlagValue -> PrometheusAdapterServerOptions -> Prop :=
| stored_lister s :
    FlagStored o "lister-kubeconfig" (StringValue s)
      (set_RemoteKubeConfigFile s o)
| stored_relist d :
    FlagStored o "metrics-relist-interval" (DurationValue d)
      (set_MetricsRelistInterval d o)
| stored_rate d :
    FlagStored o "rate-interval" (DurationValue d) (set_RateInterval d o)
| stored_discovery d :
    FlagStored o "discovery-interval" (DurationValue d)
      (set_DiscoveryInterval d o)
| stored_url s :
    FlagStored o "prometheus-url" (StringValue s) (set_PrometheusURL s o)
| stored_inCluster b :
    FlagStored o "prometheus-auth-incluster" (BoolValue b)
      (set_PrometheusAuthInCluster b o)
| stored_authConf s :
    FlagStored o "prometheus-auth-config" (StringValue s)
      (set_PrometheusAuthConf s o)
| stored_labelPrefix s :
    FlagStored o "label-prefix" (StringValue s) (set_LabelPrefix s o).

Lemma SetFlag_stored (o o' : PrometheusAdapterServerOptions) (n : string)
    (v : FlagValue) :
  SetFlag n v o = Some o' <-> FlagStored o n v o'.
Proof.
  split.
  - unfold SetFlag. cbn -[String.eqb].
    repeat match goal with
           | |- context [(?a =? n)%string] =>
               destruct (String.eqb_spec a n) as [<- | _]
           end.
    all: cbn; try discriminate.
    all: destruct v; try discriminate.
    all: intro H; injection H as <-; constructor.
  - intros []; reflexivity.
Qed.

(** Two different flags do not interfere: they can be set in either order
    with the same result, and no flag touches the embedded base options. *)
Theorem flags_are_independent (o o1 o12 : PrometheusAdapterServerOptions)
    (n1 n2 : string) (v1 v2 : FlagValue) :
  n1 <> n2 ->
  SetFlag n1 v1 o = Some o1 ->
  SetFlag n2 v2 o1 = Some o12 ->
  CustomMetricsAdapterServerOptions o12 = CustomMetricsAdapterServerOptions o
  /\ exists o2, SetFlag n2 v2 o = Some o2 /\ SetFlag n1 v1 o2 = Some o12.
Proof.
  intros Hne H1 H2.
  apply SetFlag_stored in H1. apply SetFlag_stored in H2.
  destruct H1; destruct H2; try congruence.
  all: split; [reflexivity | eexists; split; reflexivity].
Qed.

Lemma flags_are_independent_witness :
  CustomMetricsAdapterServerOptions
    (set_RateInterval Minute (set_PrometheusURL "http://prom:9090" opts0))
    = CustomMetricsAdapterServerOptions opts0 /\
  exists o2,
    SetFlag "rate-interval" (DurationValue Minute) opts0 = Some o2 /\
    SetFlag "prometheus-url" (StringValue "http://prom:9090") o2
      = Some (set_RateInterval Minute
                (set_PrometheusURL "http://prom:9090" opts0)).
Proof.
  apply (flags_are_independent opts0
           (set_PrometheusURL "http://prom:9090" opts0) _
           "prometheus-url" "rate-interval"
           (StringValue "http://prom:9090") (DurationValue Minute));
    [discriminate | reflexivity | reflexivity].
Defined.

Ltac stored H :=
  apply SetFlag_stored in H; inversion H; subst; clear H.

(** A value set by flag is the value the run uses: the Prometheus URL flag
    is the text that is parsed, the discovery interval flag is the interval
    the mapper is built with, a non-empty lister kubeconfig flag is the file
    the cluster credentials are loaded from, and the label prefix and the
    relist and rate interval flags are what the provider is composed
    with. *)
Theorem flags_reach_the_run (w : World) (o : PrometheusAdapterServerOptions)
    (stopCh : StopCh) (h : list Event) :
  (forall s o', SetFlag "prometheus-url" (StringValue s) o = Some o' ->
     forall raw r,
       In (EvURLParse raw r)
          (snd (RunCustomMetricsAdapterServer w o' stopCh h)) ->
       raw = s) /\
  (forall d o', SetFlag "discovery-interval" (DurationValue d) o = Some o' ->
     forall dc i r,
       In (EvNewRESTMapper dc i r)
          (snd (RunCustomMetricsAdapterServer w o' stopCh h)) ->
       i = d) /\
  (forall s o', SetFlag "lister-kubeconfig" (StringValue s) o = Some o' ->
     s <> "" ->
     forall ev,
       In ev (snd (RunCustomMetricsAdapterServer w o' stopCh h)) ->
       isListerCredentialCall ev = true ->
       exists r, ev = EvClientConfig Lister s r) /\
  (forall s o', SetFlag "label-prefix" (StringValue s) o = Some o' ->
     forall p,
       In (EvNewPrometheusProvider p)
          (snd (RunCustomMetricsAdapterServer w o' stopCh h)) ->
       provLabelPrefix p = s) /\
  (forall d o',
     SetFlag "metrics-relist-interval" (DurationValue d) o = Some o' ->
     forall p,
       In (EvNewPrometheusProvider p)
          (snd (RunCustomMetricsAdapterServer w o' stopCh h)) ->
       provRelistInterval p = d) /\
  (forall d o', SetFlag "rate-interval" (DurationValue d) o = Some o' ->
     forall p,
       In (EvNewPrometheusProvider p)
          (snd (RunCustomMetricsAdapterServer w o' stopCh h)) ->
       provRateInterval p = d).
Proof.
  repeat split.
  - intros s o' H; stored H. run_paths_of out.
    all: intros raw r H; in_cases H; reflexivity.
  - intros d o' H; stored H. run_paths_of out.
    all: intros dc i r H; in_cases H; reflexivity.
  - intros s o' H Hs; stored H. apply eqb_empty_false in Hs.
    remember (RunCustomMetricsAdapterServer w _ stopCh h) as out eqn:Hout.
    revert Hout. unfold RunCustomMetricsAdapterServer.
    cbn [RemoteKubeConfigFile set_RemoteKubeConfigFile].
    rewrite length_pos_nonempty, Hs.
    run_paths; intros ->; cbn.
    all: intros ev H Hl; in_cases H; try discriminate Hl.
    all: eexists; reflexivity.
  - intros s o' H; stored H. run_paths_of out.
    all: intros p H; in_cases H; reflexivity.
  - intros d o' H; stored H. run_paths_of out.
    all: intros p H; in_cases H; reflexivity.
  - intros d o' H; stored H. run_paths_of out.
    all: intros p H; in_cases H; reflexivity.
Qed.

Lemma flags_reach_the_run_witness :
  let o' := set_PrometheusURL "http://prom:9090" opts0 in
  let raw := PrometheusURL o' in
  SetFlag "prometheus-url" (StringValue "http://prom:9090") opts0 = Some o' /\
  In (EvURLParse raw (Ok (mkURL "http" "" "prom:9090" "" "" "")))
     (snd (RunCustomMetricsAdapterServer (world []) o' stop0 [])) /\
  raw = "http://prom:9090".
Proof.
  intros o' raw.
  assert (Hset : SetFlag "prometheus-url" (StringValue "http://prom:9090")
                   opts0 = Some o') by reflexivity.
  assert (Hin : In (EvURLParse raw (Ok (mkURL "http" "" "prom:9090" "" "" "")))
                  (snd (RunCustomMetricsAdapterServer (world []) o' stop0 [])))
    by in_trace.
  split; [exact Hset | split; [exact Hin | ]].
  exact (proj1 (flags_reach_the_run (world []) opts0 stop0 [])
           "http://prom:9090" o' Hset raw _ Hin).
Defined.
